(** * The stdio-to-HTTP bridge of context-portal ([stdio_bridge.py])

    The bridge reads one JSON-RPC message per line of standard input,
    posts it to the MCP HTTP endpoint through an [aiohttp] client session
    and prints the reply on standard output.

    Python statements are embedded in a state-and-exception monad over a
    [World] that records what an observer of the process can see: the
    [StdioBridge] object, the client sessions built and closed, the HTTP
    calls issued and the lines printed.  A raised exception keeps every
    effect performed before it, as in Python.  Standard input is the list
    of what its successive reads do (a line, or an exception).  The first
    definitions of [print] and of the loop are those of a standard output
    on which every write succeeds; module [Pipe] gives [print] and the
    loop on a standard output whose writes can raise, and the two agree
    when none does.

    The functions that belong to the interpreter and to its libraries
    ([json.loads], [json.dumps], the network behind [session.post]) are
    the methods of the class [PyRuntime]; every theorem holds for all its
    instances.  Module [Reference] gives executable instances for a
    fragment of JSON so that the bridge can be run on concrete lines. *)

From Stdlib Require Import String Ascii List ZArith NArith Lia Bool DecimalString.
Import ListNotations.
Local Open Scope string_scope.
Local Open Scope list_scope.

(** ** Values *)

(** What [json.loads] returns and [json.dumps] accepts.  A [dict] keeps
    its insertion order; a [float] is carried by its [repr]. *)
#[local] Set Warnings "-register-all".
Inductive JSON : Type :=
| JNone
| JBool (b : bool)
| JInt (z : Z)
| JFloat (repr : string)
| JStr (s : string)
| JList (items : list JSON)
| JDict (items : list (string * JSON)).

(** [type(v).__name__] *)
Definition type_name (v : JSON) : string :=
  match v with
  | JNone => "NoneType"
  | JBool _ => "bool"
  | JInt _ => "int"
  | JFloat _ => "float"
  | JStr _ => "str"
  | JList _ => "list"
  | JDict _ => "dict"
  end.

Definition is_dict (v : JSON) : bool :=
  match v with JDict _ => true | _ => false end.

(** [d.get(key)] on the items of a dict: the value, or [None] as default. *)
Fixpoint dict_lookup (key : string) (items : list (string * JSON)) : option JSON :=
  match items with
  | [] => None
  | (k, v) :: rest => if String.eqb k key then Some v else dict_lookup key rest
  end.

Definition dict_get (key : string) (items : list (string * JSON)) : JSON :=
  match dict_lookup key items with
  | Some v => v
  | None => JNone
  end.

(** ** Exceptions *)

(** The classes the bridge tells apart, by their place in the hierarchy:
    [JSONDecodeError] and the other subclasses of [Exception] on one side,
    [KeyboardInterrupt] and the other direct children of [BaseException]
    ([SystemExit], [asyncio.CancelledError], [GeneratorExit]) on the
    other. *)
Inductive exn_class : Type :=
| JSONDecodeError
| AttributeError
| RuntimeError
| UnicodeDecodeError
| OtherException (name : string)
| KeyboardInterrupt
| OtherBaseException (name : string).

(** An exception object: its class and [str(e)]. *)
Record exn : Type := Exn { exn_cls : exn_class; exn_str : string }.

Definition isinstance_JSONDecodeError (e : exn) : bool :=
  match exn_cls e with JSONDecodeError => true | _ => false end.

Definition isinstance_KeyboardInterrupt (e : exn) : bool :=
  match exn_cls e with KeyboardInterrupt => true | _ => false end.

Definition isinstance_Exception (e : exn) : bool :=
  match exn_cls e with
  | KeyboardInterrupt | OtherBaseException _ => false
  | _ => true
  end.

(** ** The world *)

(** An [aiohttp.ClientSession] object, known by its identity: the n-th
    session built by the process is [n]. *)
Definition Session := nat.

(** One call [session.post(url, json=payload)]: the session used, the URL
    and the [json=] argument.  What goes out as the body of the request
    is [post_body] below. *)
Record Post : Type := mkPost {
  post_session : Session;
  post_url : string;
  post_json : JSON
}.

(** The reply object bound by [async with session.post(...) as response]:
    the bytes of its body and what [await response.json()] does on it. *)
Record Response : Type := mkResponse {
  resp_body : string;
  resp_json : exn + JSON
}.

(** [class StdioBridge]: the attributes set by [__init__]. *)
Record StdioBridge : Type := mkBridge {
  mcp_url : string;
  session : option Session
}.

Record World : Type := mkWorld {
  bridge : StdioBridge;
  created : nat;            (* ClientSession() calls so far *)
  closed : list Session;    (* sessions on which close() was awaited *)
  posts : list Post;        (* HTTP calls issued, oldest first *)
  stdout : list string      (* lines printed, oldest first *)
}.

(** [StdioBridge.__init__] with its default URL, in a fresh process. *)
Definition StdioBridge_init : StdioBridge :=
  {| mcp_url := "http://localhost:8001/mcp"; session := None |}.

Definition initial_world : World :=
  {| bridge := StdioBridge_init; created := 0; closed := [];
     posts := []; stdout := [] |}.

Definition log_post (p : Post) (w : World) : World :=
  {| bridge := bridge w; created := created w; closed := closed w;
     posts := posts w ++ [p]; stdout := stdout w |}.

Definition log_line (line : string) (w : World) : World :=
  {| bridge := bridge w; created := created w; closed := closed w;
     posts := posts w; stdout := stdout w ++ [line] |}.

(** The ["id"] member of a message, when the message is an object that
    has one. *)
Definition envelope_id (v : JSON) : option JSON :=
  match v with
  | JDict items => dict_lookup "id" items
  | _ => None
  end.

(** ** The runtime the bridge calls into *)

Class PyRuntime : Type := {
  (** [json.loads] on a [str]: a value, or the exception raised. *)
  json_loads : string -> exn + JSON;
  (** [json.dumps] with its default arguments. *)
  json_dumps : JSON -> string;
  (** The network and the server behind [session.post(url, json=payload)]:
      from the calls issued before, the URL and the payload, the reply or
      the exception raised (connection refused, timeout, ...). *)
  http : list Post -> string -> JSON -> exn + Response
}.

(** ** The monad *)

Inductive result (A : Type) : Type :=
| Ret (a : A)
| Raise (e : exn).
Arguments Ret {A} a.
Arguments Raise {A} e.

Definition M (A : Type) : Type := World -> result A * World.

Definition ret {A} (a : A) : M A := fun w => (Ret a, w).

Definition raise {A} (e : exn) : M A := fun w => (Raise e, w).

Definition bind {A B} (m : M A) (k : A -> M B) : M B :=
  fun w =>
    match m w with
    | (Ret a, w') => k a w'
    | (Raise e, w') => (Raise e, w')
    end.

Declare Scope py_scope.
Delimit Scope py_scope with py.
Notation "x <- m ;; k" := (bind m (fun x => k))
  (at level 61, m at next level, right associativity) : py_scope.
Notation "m ;; k" := (bind m (fun _ => k))
  (at level 61, right associativity) : py_scope.
Local Open Scope py_scope.

(** A value or an exception computed without touching the world. *)
Definition lift {A} (r : exn + A) : M A :=
  match r with
  | inr a => ret a
  | inl e => raise e
  end.

(** [try: body / except ...: handlers]: [handlers e] is the suite of the
    first clause that matches [e], or [None] when no clause matches and
    [e] goes on to the caller. *)
Definition try_except {A} (body : M A) (handlers : exn -> option (M A)) : M A :=
  fun w =>
    match body w with
    | (Ret a, w') => (Ret a, w')
    | (Raise e, w') =>
        match handlers e with
        | Some suite => suite w'
        | None => (Raise e, w')
        end
    end.

(** ** [class StdioBridge] *)

Section Bridge.
Context {rt : PyRuntime}.

(** [aiohttp.ClientSession()] *)
Definition ClientSession : M Session :=
  fun w =>
    (Ret (created w),
     {| bridge := bridge w; created := S (created w); closed := closed w;
        posts := posts w; stdout := stdout w |}).

(** [self.session = s] *)
Definition set_session (s : Session) : M unit :=
  fun w =>
    (Ret tt,
     {| bridge := {| mcp_url := mcp_url (bridge w); session := Some s |};
        created := created w; closed := closed w;
        posts := posts w; stdout := stdout w |}).

(** [await s.close()] *)
Definition session_close (s : Session) : M unit :=
  fun w =>
    (Ret tt,
     {| bridge := bridge w; created := created w; closed := closed w ++ [s];
        posts := posts w; stdout := stdout w |}).

Definition is_closed (s : Session) (w : World) : bool :=
  existsb (Nat.eqb s) (closed w).

(** [async with s.post(url, json=payload) as response]: a closed session
    refuses the request before anything is sent; otherwise the call is
    issued, logged with its [json=] argument, and the network answers. *)
Definition session_post (s : Session) (url : string) (payload : JSON) : M Response :=
  fun w =>
    if is_closed s w then
      (Raise (Exn RuntimeError "Session is closed"), w)
    else
      let w' := log_post (mkPost s url payload) w in
      match http (posts w) url payload with
      | inr response => (Ret response, w')
      | inl e => (Raise e, w')
      end.

(** [print(line, flush=True)] when the write succeeds; [Pipe.print] is
    the call that can raise. *)
Definition print (line : string) : M unit :=
  fun w => (Ret tt, log_line line w).

Definition get_self : M StdioBridge := fun w => (Ret (bridge w), w).

(** [request.get("id")]: only a dict has the method. *)
Definition request_get (request : JSON) (key : string) : M JSON :=
  match request with
  | JDict items => ret (dict_get key items)
  | _ =>
      raise (Exn AttributeError
               ("'" ++ type_name request ++ "' object has no attribute 'get'"))
  end.

(** [StdioBridge.__aenter__] *)
Definition aenter : M unit :=
  s <- ClientSession ;;
  set_session s.

(** [StdioBridge.__aexit__]; it returns [None], so an exception of the
    body is not swallowed. *)
Definition aexit : M unit :=
  self <- get_self ;;
  match session self with
  | Some s => session_close s
  | None => ret tt
  end.

(** The dict built by the [except] clause of [forward_request]. *)
Definition http_error_response (e : exn) (id : JSON) : JSON :=
  JDict [("jsonrpc", JStr "2.0");
         ("error", JDict [("code", JInt (-32603));
                          ("message", JStr ("HTTP request failed: " ++ exn_str e))]);
         ("id", id)].

(** [StdioBridge.forward_request] *)
Definition forward_request (request : JSON) : M JSON :=
  self <- get_self ;;
  match session self with
  | None => aenter
  | Some _ => ret tt
  end ;;
  try_except
    (self <- get_self ;;
     match session self with
     | Some s =>
         response <- session_post s (mcp_url self) request ;;
         lift (resp_json response)
     | None =>
         raise (Exn AttributeError "'NoneType' object has no attribute 'post'")
     end)
    (fun e =>
       if isinstance_Exception e then
         Some (id <- request_get request "id" ;;
               ret (http_error_response e id))
       else None).

(** What [session.post] followed by [response.json()] yields in world [w]
    for [request]: the parsed reply, or the exception of whichever of the
    two raised. *)
Definition round_trip (w : World) (request : JSON) : exn + JSON :=
  match http (posts w) (mcp_url (bridge w)) request with
  | inr response => resp_json response
  | inl e => inl e
  end.

(** ** [main] *)

(** The dict built by the last [except] clause of the loop. *)
Definition error_response (e : exn) : JSON :=
  JDict [("jsonrpc", JStr "2.0");
         ("error", JDict [("code", JInt (-32700));
                          ("message", JStr ("Parse error: " ++ exn_str e))]);
         ("id", JNone)].

(** [str.isspace] below U+0080: U+0009..U+000D and U+001C..U+0020. *)
Definition isspace (c : ascii) : bool :=
  let n := nat_of_ascii c in
  ((9 <=? n) && (n <=? 13))%nat || ((28 <=? n) && (n <=? 32))%nat.

(** The other code points for which [str.isspace] holds, in the UTF-8
    form under which a [str] is held here: U+0085 and U+00A0 on two
    bytes; U+1680, U+2000..U+200A, U+2028, U+2029, U+202F, U+205F and
    U+3000 on three. *)
Definition isspace2 (c0 c1 : ascii) : bool :=
  let n0 := nat_of_ascii c0 in
  let n1 := nat_of_ascii c1 in
  ((n0 =? 194) && ((n1 =? 133) || (n1 =? 160)))%nat.

Definition isspace3 (c0 c1 c2 : ascii) : bool :=
  let n0 := nat_of_ascii c0 in
  let n1 := nat_of_ascii c1 in
  let n2 := nat_of_ascii c2 in
  ((n0 =? 225) && (n1 =? 154) && (n2 =? 128)
   || (n0 =? 226) && (n1 =? 128)
      && ((128 <=? n2) && (n2 <=? 138) || (n2 =? 168) || (n2 =? 169) || (n2 =? 175))
   || (n0 =? 226) && (n1 =? 129) && (n2 =? 159)
   || (n0 =? 227) && (n1 =? 128) && (n2 =? 128))%nat.

Fixpoint lstrip (s : string) : string :=
  match s with
  | EmptyString => EmptyString
  | String c0 r0 =>
      if isspace c0 then lstrip r0
      else
        match r0 with
        | String c1 r1 =>
            if isspace2 c0 c1 then lstrip r1
            else
              match r1 with
              | String c2 r2 => if isspace3 c0 c1 c2 then lstrip r2 else s
              | EmptyString => s
              end
        | EmptyString => s
        end
  end.

(** A character of the text is kept when something other than white
    space is found from it on. *)
Fixpoint rstrip (s : string) : string :=
  match s with
  | EmptyString => EmptyString
  | String c s' =>
      match lstrip s with
      | EmptyString => EmptyString
      | _ => String c (rstrip s')
      end
  end.

(** [line.strip()] *)
Definition strip (line : string) : string := rstrip (lstrip line).

(** The [try] suite of the loop. *)
Definition handle_line (line : string) : M unit :=
  request <- lift (json_loads (strip line)) ;;
  response <- forward_request request ;;
  print (json_dumps response).

(** The body of [for line in sys.stdin]: the [try] statement. *)
Definition loop_body (line : string) : M unit :=
  try_except (handle_line line)
    (fun e =>
       if isinstance_JSONDecodeError e then Some (ret tt)          (* continue *)
       else if isinstance_Exception e then
         Some (print (json_dumps (error_response e)))
       else None).

(** What one [next()] on [sys.stdin] does: a line of text, or an
    exception of the stream (an undecodable byte, an interrupt while
    blocked in the read, an I/O error).  The end of the list is the end
    of the stream. *)
Inductive stdin_event : Type :=
| Line (line : string)
| StdinRaise (e : exn).

(** [for line in sys.stdin: ...]; the iteration is outside the [try]. *)
Fixpoint for_stdin (events : list stdin_event) : M unit :=
  match events with
  | [] => ret tt
  | Line line :: rest => loop_body line ;; for_stdin rest
  | StdinRaise e :: _ => raise e
  end.

(** [async with bridge: body] *)
Definition async_with (body : M unit) : M unit :=
  aenter ;;
  fun w =>
    match body w with
    | (Ret tt, w') => aexit w'
    | (Raise e, w') =>
        match aexit w' with
        | (Ret tt, w'') => (Raise e, w'')
        | (Raise e', w'') => (Raise e', w'')
        end
    end.

(** [main], started on what standard input will deliver. *)
Definition main (stdin : list stdin_event) : M unit :=
  try_except (async_with (for_stdin stdin))
    (fun e => if isinstance_KeyboardInterrupt e then Some (ret tt) else None).

End Bridge.

(** ** Executable instances of the runtime *)

Module Reference.

(** *** [json.dumps] with its defaults: separators [", "] and [": "],
    [ensure_ascii=True], keys in the dict's order. *)

Definition dquote : ascii := ascii_of_nat 34.

Definition hex_digit (n : N) : ascii :=
  if (n <? 10)%N then ascii_of_N (48 + n) else ascii_of_N (87 + n).

(** ['\\u{0:04x}'.format(n)] *)
Definition u_escape (n : N) : string :=
  "\u" ++ String (hex_digit (N.land (N.shiftr n 12) 15))
         (String (hex_digit (N.land (N.shiftr n 8) 15))
         (String (hex_digit (N.land (N.shiftr n 4) 15))
         (String (hex_digit (N.land n 15)) EmptyString))).

(** The escape of one code point, as [py_encode_basestring_ascii]. *)
Definition escape_code_point (cp : N) : string :=
  if (cp =? 34)%N then String "\" (String dquote EmptyString)
  else if (cp =? 92)%N then "\\"
  else if (cp =? 10)%N then "\n"
  else if (cp =? 13)%N then "\r"
  else if (cp =? 9)%N then "\t"
  else if (cp =? 12)%N then "\f"
  else if (cp =? 8)%N then "\b"
  else if ((32 <=? cp) && (cp <=? 126))%N then String (ascii_of_N cp) EmptyString
  else if (cp <? 0x10000)%N then u_escape cp
  else
    let v := (cp - 0x10000)%N in
    u_escape (N.lor 0xd800 (N.land (N.shiftr v 10) 0x3ff))
    ++ u_escape (N.lor 0xdc00 (N.land v 0x3ff)).

Definition bytes_of (s : string) : list N := map N_of_ascii (list_ascii_of_string s).

Definition continuation (b : N) : bool := ((0x80 <=? b) && (b <=? 0xBF))%N.

(** The strict UTF-8 decoder: the code points of a byte sequence, or
    [None] where CPython raises [UnicodeDecodeError] (stray continuation
    bytes, truncated or overlong forms, surrogates, beyond U+10FFFF). *)
Fixpoint utf8_decode (bs : list N) : option (list N) :=
  match bs with
  | [] => Some []
  | b0 :: r0 =>
      if (b0 <? 0x80)%N then option_map (cons b0) (utf8_decode r0)
      else if ((0xC2 <=? b0) && (b0 <=? 0xDF))%N then
        match r0 with
        | b1 :: r1 =>
            let cp := N.lor (N.shiftl (N.land b0 0x1F) 6) (N.land b1 0x3F) in
            if continuation b1 then option_map (cons cp) (utf8_decode r1)
            else None
        | _ => None
        end
      else if ((0xE0 <=? b0) && (b0 <=? 0xEF))%N then
        match r0 with
        | b1 :: b2 :: r2 =>
            let cp := N.lor (N.shiftl (N.land b0 0x0F) 12)
                        (N.lor (N.shiftl (N.land b1 0x3F) 6) (N.land b2 0x3F)) in
            if continuation b1 && continuation b2
               && (0x800 <=? cp)%N
               && negb ((0xD800 <=? cp) && (cp <=? 0xDFFF))%N
            then option_map (cons cp) (utf8_decode r2)
            else None
        | _ => None
        end
      else if ((0xF0 <=? b0) && (b0 <=? 0xF4))%N then
        match r0 with
        | b1 :: b2 :: b3 :: r3 =>
            let cp := N.lor (N.shiftl (N.land b0 0x07) 18)
                        (N.lor (N.shiftl (N.land b1 0x3F) 12)
                           (N.lor (N.shiftl (N.land b2 0x3F) 6) (N.land b3 0x3F))) in
            if continuation b1 && continuation b2 && continuation b3
               && (0x10000 <=? cp)%N && (cp <=? 0x10FFFF)%N
            then option_map (cons cp) (utf8_decode r3)
            else None
        | _ => None
        end
      else None
  end.

(** A [str] is held as its UTF-8 bytes; its code points are read back
    for escaping (bytes that are no UTF-8 are escaped one by one). *)
Definition code_points (s : string) : list N :=
  match utf8_decode (bytes_of s) with
  | Some cps => cps
  | None => bytes_of s
  end.

Definition dumps_str (s : string) : string :=
  String dquote
    (String.concat EmptyString (map escape_code_point (code_points s))
     ++ String dquote EmptyString).

Definition dumps_int (z : Z) : string :=
  DecimalString.NilZero.string_of_int (Z.to_int z).

Fixpoint dumps (v : JSON) : string :=
  match v with
  | JNone => "null"
  | JBool true => "true"
  | JBool false => "false"
  | JInt z => dumps_int z
  | JFloat repr => repr
  | JStr s => dumps_str s
  | JList items => "[" ++ String.concat ", " (map dumps items) ++ "]"
  | JDict items =>
      "{" ++ String.concat ", "
               (map (fun kv => (dumps_str (fst kv) ++ ": " ++ dumps (snd kv))%string) items)
          ++ "}"
  end.

(** *** [json.loads] on the fragment of JSON text with integer numbers
    and the two-character escapes.  A fraction, an exponent, a [\u]
    escape, [NaN] or [Infinity] is outside the fragment and is answered
    with [JSONDecodeError]; the text of the message is not reproduced. *)

Definition is_json_ws (c : ascii) : bool :=
  let n := nat_of_ascii c in
  ((n =? 32) || (n =? 9) || (n =? 10) || (n =? 13))%nat.

Fixpoint skip_ws (s : string) : string :=
  match s with
  | String c r => if is_json_ws c then skip_ws r else s
  | EmptyString => EmptyString
  end.

Definition unescape (c : ascii) : option ascii :=
  if Ascii.eqb c dquote then Some dquote
  else if Ascii.eqb c "\" then Some "\"%char
  else if Ascii.eqb c "/" then Some "/"%char
  else if Ascii.eqb c "b" then Some (ascii_of_nat 8)
  else if Ascii.eqb c "f" then Some (ascii_of_nat 12)
  else if Ascii.eqb c "n" then Some (ascii_of_nat 10)
  else if Ascii.eqb c "r" then Some (ascii_of_nat 13)
  else if Ascii.eqb c "t" then Some (ascii_of_nat 9)
  else None.

Definition push (c : ascii) (r : option (string * string)) : option (string * string) :=
  match r with
  | Some (text, rest) => Some (String c text, rest)
  | None => None
  end.

(** After the opening quote: the text of the literal and what follows
    its closing quote. *)
Fixpoint scan_string (s : string) : option (string * string) :=
  match s with
  | EmptyString => None
  | String c r =>
      if Ascii.eqb c dquote then Some (EmptyString, r)
      else if Ascii.eqb c "\" then
        match r with
        | String e r' =>
            match unescape e with
            | Some c' => push c' (scan_string r')
            | None => None
            end
        | EmptyString => None
        end
      else if (nat_of_ascii c <? 32)%nat then None
      else push c (scan_string r)
  end.

Definition digit_value (c : ascii) : option Z :=
  let n := nat_of_ascii c in
  if ((48 <=? n) && (n <=? 57))%nat then Some (Z.of_nat (n - 48)) else None.

Fixpoint scan_digits (s : string) (acc : Z) : Z * string :=
  match s with
  | String c r =>
      match digit_value c with
      | Some d => scan_digits r (10 * acc + d)
      | None => (acc, s)
      end
  | EmptyString => (acc, s)
  end.

(** [0] or a digit sequence without leading zero, not followed by a
    fraction or an exponent. *)
Definition scan_nat (s : string) : option (Z * string) :=
  match s with
  | String c r =>
      match digit_value c with
      | Some d =>
          let '(n, rest) := if (d =? 0)%Z then (0%Z, r) else scan_digits s 0 in
          match rest with
          | String c' _ =>
              if Ascii.eqb c' "." || Ascii.eqb c' "e" || Ascii.eqb c' "E"
              then None else Some (n, rest)
          | EmptyString => Some (n, rest)
          end
      | None => None
      end
  | EmptyString => None
  end.

Fixpoint strip_prefix (p s : string) : option string :=
  match p, s with
  | EmptyString, _ => Some s
  | String a p', String b s' => if Ascii.eqb a b then strip_prefix p' s' else None
  | String _ _, EmptyString => None
  end.

(** [d[k] = v]: a key already present keeps its place. *)
Fixpoint dict_set (k : string) (v : JSON) (items : list (string * JSON))
  : list (string * JSON) :=
  match items with
  | [] => [(k, v)]
  | (k', v') :: rest =>
      if String.eqb k' k then (k', v) :: rest else (k', v') :: dict_set k v rest
  end.

Fixpoint parse_value (fuel : nat) (s : string) : option (JSON * string) :=
  match fuel with
  | O => None
  | S fuel =>
      match skip_ws s with
      | EmptyString => None
      | String c r =>
          if Ascii.eqb c "{" then
            match skip_ws r with
            | String "}" r' => Some (JDict [], r')
            | _ => parse_members fuel r []
            end
          else if Ascii.eqb c "[" then
            match skip_ws r with
            | String "]" r' => Some (JList [], r')
            | _ => parse_elements fuel r []
            end
          else if Ascii.eqb c dquote then
            match scan_string r with
            | Some (text, rest) => Some (JStr text, rest)
            | None => None
            end
          else if Ascii.eqb c "-" then
            match scan_nat r with
            | Some (n, rest) => Some (JInt (- n), rest)
            | None => None
            end
          else
            match strip_prefix "null" (String c r),
                  strip_prefix "true" (String c r),
                  strip_prefix "false" (String c r) with
            | Some rest, _, _ => Some (JNone, rest)
            | _, Some rest, _ => Some (JBool true, rest)
            | _, _, Some rest => Some (JBool false, rest)
            | _, _, _ =>
                match scan_nat (String c r) with
                | Some (n, rest) => Some (JInt n, rest)
                | None => None
                end
            end
      end
  end
with parse_elements (fuel : nat) (s : string) (acc : list JSON)
  : option (JSON * string) :=
  match fuel with
  | O => None
  | S fuel =>
      match parse_value fuel s with
      | Some (v, r) =>
          match skip_ws r with
          | String "," r' => parse_elements fuel r' (acc ++ [v])
          | String "]" r' => Some (JList (acc ++ [v]), r')
          | _ => None
          end
      | None => None
      end
  end
with parse_members (fuel : nat) (s : string) (acc : list (string * JSON))
  : option (JSON * string) :=
  match fuel with
  | O => None
  | S fuel =>
      match skip_ws s with
      | String c r =>
          if Ascii.eqb c dquote then
            match scan_string r with
            | Some (k, r1) =>
                match skip_ws r1 with
                | String ":" r2 =>
                    match parse_value fuel r2 with
                    | Some (v, r3) =>
                        match skip_ws r3 with
                        | String "," r4 => parse_members fuel r4 (dict_set k v acc)
                        | String "}" r4 => Some (JDict (dict_set k v acc), r4)
                        | _ => None
                        end
                    | None => None
                    end
                | _ => None
                end
            | None => None
            end
          else None
      | EmptyString => None
      end
  end.

Definition loads (s : string) : exn + JSON :=
  match parse_value (2 * String.length s + 2) s with
  | Some (v, rest) =>
      match skip_ws rest with
      | EmptyString => inr v
      | _ => inl (Exn JSONDecodeError "Extra data")
      end
  | None => inl (Exn JSONDecodeError "Expecting value")
  end.

(** *** [sys.stdin]: the text layer over the bytes of the pipe, with the
    interpreter's [errors='strict'] (its setting outside the C locale and
    UTF-8 mode, where it is [surrogateescape]).  Each element of [raw]
    holds the bytes of one line, and the lines reach the process one
    read at a time; a line that is no UTF-8 makes its read raise.  When
    several lines arrive in one chunk the interpreter decodes the chunk
    at once, and the read of the first of them raises. *)
Fixpoint sys_stdin (raw : list string) : list stdin_event :=
  match raw with
  | [] => []
  | bytes :: rest =>
      match utf8_decode (bytes_of bytes) with
      | Some _ => Line bytes :: sys_stdin rest
      | None =>
          [StdinRaise (Exn UnicodeDecodeError
                         "'utf-8' codec can't decode bytes: invalid UTF-8")]
      end
  end.

(** The runtime made of the instances above and of a given server. *)
Definition runtime (server : list Post -> string -> JSON -> exn + Response)
  : PyRuntime :=
  {| json_loads := loads; json_dumps := dumps; http := server |}.

(** JSON text written with a backquote where the text has the double
    quote. *)
Fixpoint dq (s : string) : string :=
  match s with
  | EmptyString => EmptyString
  | String c r => String (if Ascii.eqb c "`" then dquote else c) (dq r)
  end.

End Reference.

(** ** Lines, servers and worlds to run the bridge on *)

Module Fixtures.
Import Reference.



(** A JSON-RPC server that answers a request with an empty result under
    the request's id. *)
Definition echo_reply (request : JSON) : JSON :=
  JDict [("jsonrpc", JStr "2.0");
         ("id", match envelope_id request with Some i => i | None => JNone end);
         ("result", JDict [])].

Definition echo : list Post -> string -> JSON -> exn + Response :=
  fun _ _ request =>
    inr (mkResponse (dumps (echo_reply request)) (inr (echo_reply request))).



Definition request_line (id : string) : string :=
  dq "{`jsonrpc`: `2.0`, `id`: " ++ id ++ dq ", `method`: `tools/list`, `params`: {}}"
  ++ String (ascii_of_nat 10) EmptyString.

Definition request_value (id : Z) : JSON :=
  JDict [("jsonrpc", JStr "2.0"); ("id", JInt id);
         ("method", JStr "tools/list"); ("params", JDict [])].

Definition notification_line : string :=
  dq "{`jsonrpc`: `2.0`, `method`: `notifications/initialized`}"
  ++ String (ascii_of_nat 10) EmptyString.

Definition notification_items : list (string * JSON) :=
  [("jsonrpc", JStr "2.0"); ("method", JStr "notifications/initialized")].

(** A JSON-RPC batch: an array, not an object. *)
Definition batch_line : string :=
  dq "[{`jsonrpc`: `2.0`, `id`: 1, `method`: `ping`}]"
  ++ String (ascii_of_nat 10) EmptyString.

Definition batch_value : JSON :=
  JList [JDict [("jsonrpc", JStr "2.0"); ("id", JInt 1); ("method", JStr "ping")]].

Definition unbalanced_line : string :=
  dq "{`jsonrpc`: `2.0`, `id`: 1" ++ String (ascii_of_nat 10) EmptyString.

(** A line whose first byte, 0xFF, can start no UTF-8 sequence. *)
Definition non_utf8_line : string :=
  String (ascii_of_nat 255) (String (ascii_of_nat 10) EmptyString).


Definition not_found_value : JSON :=
  JDict [("jsonrpc", JStr "2.0"); ("id", JInt 1);
         ("error", JDict [("code", JInt (-32001));
                          ("message", JStr "item not found")])].

(** The world inside [async with bridge], before the first line. *)
Definition ready_world : World := snd (aenter initial_world).

Definition url : string := "http://localhost:8001/mcp".

End Fixtures.

(** ** Vocabulary of the statements *)

Definition is_line (ev : stdin_event) : bool :=
  match ev with Line _ => true | StdinRaise _ => false end.

(** Standard input delivers the lines [lines], then raises [e]. *)
Definition stdin_raises (events : list stdin_event) (e : exn) : Prop :=
  exists lines rest, events = map Line lines ++ StdinRaise e :: rest.



(** ** Faults to run the bridge against *)

Module Faults.
Import Reference Fixtures.

(** Ctrl-C arrives while the call is in flight. *)
Definition interrupted : list Post -> string -> JSON -> exn + Response :=
  fun _ _ _ => inl (Exn KeyboardInterrupt EmptyString).





End Faults.

(** ** More vocabulary *)

(** The lines among what standard input delivers. *)
Definition count_lines (events : list stdin_event) : nat :=
  length (filter is_line events).

(** The values of the lines that [json.loads] accepts, in order. *)
Definition parsed_values {rt : PyRuntime} (events : list stdin_event) : list JSON :=
  flat_map (fun ev =>
              match ev with
              | Line line =>
                  match json_loads (strip line) with
                  | inr v => [v]
                  | inl _ => []
                  end
              | StdinRaise _ => []
              end) events.

(** A line that is not skipped: [json.loads] returns, or raises something
    other than [JSONDecodeError]. *)
Definition answered {rt : PyRuntime} (ev : stdin_event) : bool :=
  match ev with
  | Line line =>
      match json_loads (strip line) with
      | inr _ => true
      | inl e => negb (isinstance_JSONDecodeError e)
      end
  | StdinRaise _ => false
  end.

(** [v] is what [response.json()] returned for some reply of the server. *)
Definition server_reply {rt : PyRuntime} (v : JSON) : Prop :=
  exists history u request response,
    http history u request = inr response /\ resp_json response = inr v.

(** [line] is [json.dumps] of a reply of the server or of one of the two
    envelopes the bridge builds. *)
Definition bridge_output {rt : PyRuntime} (line : string) : Prop :=
  exists v,
    line = json_dumps v
    /\ (server_reply v
        \/ (exists e i, v = http_error_response e i)
        \/ (exists e, v = error_response e)).

(** Text made of white space below U+0080 only. *)
Definition all_space (s : string) : bool :=
  forallb isspace (list_ascii_of_string s).

(** The body [aiohttp] sends for a call: [json.dumps] of the [json=]
    argument, and no body at all when that argument is [None]. *)
Definition post_body {rt : PyRuntime} (p : Post) : option string :=
  match post_json p with
  | JNone => None
  | v => Some (json_dumps v)
  end.

(** ** Standard output that can fail *)

(** [print(line, flush=True)] on the pipe, after the lines [written]:
    [None] when the line is written, or the exception the call raises
    ([BrokenPipeError] once the reader has gone), nothing being written
    then. *)
Class PyStdout : Type := {
  stdout_write : list string -> string -> option exn
}.

(** [main] and its loop with that [print]. *)
Module Pipe.
Section Loop.
Context {rt : PyRuntime} {so : PyStdout}.

(** [print(line, flush=True)] *)
Definition print (line : string) : M unit :=
  fun w =>
    match stdout_write (stdout w) line with
    | None => (Ret tt, log_line line w)
    | Some e => (Raise e, w)
    end.

(** The [try] suite of the loop. *)
Definition handle_line (line : string) : M unit :=
  request <- lift (json_loads (strip line)) ;;
  response <- forward_request request ;;
  print (json_dumps response).

(** The two [except] clauses of the loop. *)
Definition handlers (e : exn) : option (M unit) :=
  if isinstance_JSONDecodeError e then Some (ret tt)              (* continue *)
  else if isinstance_Exception e then
    Some (print (json_dumps (error_response e)))
  else None.

(** The body of [for line in sys.stdin]: the [try] statement. *)
Definition loop_body (line : string) : M unit :=
  try_except (handle_line line) handlers.

(** [for line in sys.stdin: ...]; the iteration is outside the [try]. *)
Fixpoint for_stdin (events : list stdin_event) : M unit :=
  match events with
  | [] => ret tt
  | Line line :: rest => loop_body line ;; for_stdin rest
  | StdinRaise e :: _ => raise e
  end.

(** [main], started on what standard input will deliver. *)
Definition main (stdin : list stdin_event) : M unit :=
  try_except (async_with (for_stdin stdin))
    (fun e => if isinstance_KeyboardInterrupt e then Some (ret tt) else None).

End Loop.
End Pipe.

(** [e] is what the write of a -32700 envelope raised. *)
Definition envelope_write_raises {rt : PyRuntime} {so : PyStdout} (e : exn) : Prop :=
  exists e0 written,
    stdout_write written (json_dumps (error_response e0)) = Some e.

Module Outputs.


(** A reader that has closed its end of the pipe. *)
Definition broken_pipe : PyStdout :=
  {| stdout_write := fun _ _ =>
       Some (Exn (OtherException "BrokenPipeError") "[Errno 32] Broken pipe") |}.


End Outputs.

(** * Properties *)

Section Bridge_lemmas.
Context {rt : PyRuntime}.

Lemma is_closed_log_post (s : Session) (p : Post) (w : World) :
  is_closed s (log_post p w) = is_closed s w.
Proof. reflexivity. Qed.

Lemma is_closed_log_line (s : Session) (line : string) (w : World) :
  is_closed s (log_line line w) = is_closed s w.
Proof. reflexivity. Qed.

(** [forward_request] on a bridge that holds an open session. *)
Lemma forward_request_open (request : JSON) (w : World) (s : Session) :
  session (bridge w) = Some s ->
  is_closed s w = false ->
  forward_request request w =
    let w' := log_post (mkPost s (mcp_url (bridge w)) request) w in
    match round_trip w request with
    | inr v => (Ret v, w')
    | inl e =>
        if isinstance_Exception e then
          match request with
          | JDict items => (Ret (http_error_response e (dict_get "id" items)), w')
          | _ =>
              (Raise (Exn AttributeError
                        ("'" ++ type_name request ++ "' object has no attribute 'get'")),
               w')
          end
        else (Raise e, w')
    end.
Proof.
  intros Hs Hopen.
  unfold forward_request, bind, get_self, try_except, round_trip, session_post.
  rewrite Hs. cbn [ret]. rewrite Hs. rewrite Hopen.
  destruct (http (posts w) (mcp_url (bridge w)) request) as [e | response];
    cbn [bridge log_post lift].
  - destruct (isinstance_Exception e); [| reflexivity].
    destruct request; reflexivity.
  - destruct (resp_json response) as [e | v]; cbn [lift raise ret]; [| reflexivity].
    destruct (isinstance_Exception e); [| reflexivity].
    destruct request; reflexivity.
Qed.

(** One turn of the loop on a line that [json.loads] accepts. *)
Lemma loop_body_parsed (line : string) (request : JSON) (w : World) :
  json_loads (strip line) = inr request ->
  loop_body line w =
    match forward_request request w with
    | (Ret response, w') => (Ret tt, log_line (json_dumps response) w')
    | (Raise e, w') =>
        if isinstance_JSONDecodeError e then (Ret tt, w')
        else if isinstance_Exception e then
          (Ret tt, log_line (json_dumps (error_response e)) w')
        else (Raise e, w')
    end.
Proof.
  intros Hparse.
  unfold loop_body, handle_line, try_except, bind. rewrite Hparse. cbn [lift ret].
  destruct (forward_request request w) as [[response | e] w']; [reflexivity |].
  destruct (isinstance_JSONDecodeError e); [reflexivity |].
  destruct (isinstance_Exception e); reflexivity.
Qed.

Lemma for_stdin_line (line : string) (rest : list stdin_event) (w : World) :
  for_stdin (Line line :: rest) w =
    match loop_body line w with
    | (Ret _, w') => for_stdin rest w'
    | (Raise e, w') => (Raise e, w')
    end.
Proof. reflexivity. Qed.

End Bridge_lemmas.

Import Reference Fixtures.

(** ** The instances and the bridge on concrete input *)

Example strip_request_line :
  strip ("  " ++ request_line "1")
  = dq "{`jsonrpc`: `2.0`, `id`: 1, `method`: `tools/list`, `params`: {}}".
Proof. reflexivity. Qed.

(** A no-break space (bytes C2 A0) around the text is white space too. *)
Example strip_no_break_space :
  let nbsp := String (ascii_of_nat 194) (String (ascii_of_nat 160) EmptyString) in
  strip (nbsp ++ "a b" ++ nbsp ++ " ") = "a b".
Proof. reflexivity. Qed.

Example loads_request : loads (strip (request_line "1")) = inr (request_value 1).
Proof. reflexivity. Qed.

Example loads_unbalanced :
  loads (strip unbalanced_line) = inl (Exn JSONDecodeError "Expecting value").
Proof. reflexivity. Qed.

Example loads_duplicate_key :
  loads (dq "{`a`: 1, `b`: [true, null], `a`: -2}")
  = inr (JDict [("a", JInt (-2)); ("b", JList [JBool true; JNone])]).
Proof. reflexivity. Qed.

Example dumps_not_found :
  dumps not_found_value
  = dq "{`jsonrpc`: `2.0`, `id`: 1, `error`: {`code`: -32001, `message`: `item not found`}}".
Proof. reflexivity. Qed.

(** e-acute (bytes C3 A9), a line feed and a quote in a string. *)
Example dumps_escapes :
  dumps (JStr (String (ascii_of_nat 195) (String (ascii_of_nat 169)
                 (String (ascii_of_nat 10) (dq "`")))))
  = dq "`\u00e9\n\``".
Proof. reflexivity. Qed.

Example utf8_decode_rejects_ff : utf8_decode (bytes_of non_utf8_line) = None.
Proof. reflexivity. Qed.

(** A session of five lines against a server that answers: the malformed
    line is skipped, every other line is posted and answered in turn. *)
Example main_five_lines :
  main (rt := runtime echo)
    [Line notification_line; Line (request_line "1"); Line unbalanced_line;
     Line batch_line; Line (request_line "2")]
    initial_world
  = (Ret tt,
     {| bridge := {| mcp_url := url; session := Some 0 |};
        created := 1;
        closed := [0];
        posts := [mkPost 0 url (JDict notification_items);
                  mkPost 0 url (request_value 1);
                  mkPost 0 url batch_value;
                  mkPost 0 url (request_value 2)];
        stdout := [dq "{`jsonrpc`: `2.0`, `id`: null, `result`: {}}";
                   dq "{`jsonrpc`: `2.0`, `id`: 1, `result`: {}}";
                   dq "{`jsonrpc`: `2.0`, `id`: null, `result`: {}}";
                   dq "{`jsonrpc`: `2.0`, `id`: 2, `result`: {}}"] |}).
Proof. vm_compute. reflexivity. Qed.

(** An interrupt while blocked in the read: [main] closes the session and
    returns. *)
Example main_keyboard_interrupt :
  main (rt := runtime echo)
    [Line (request_line "1"); StdinRaise (Exn KeyboardInterrupt "")]
    initial_world
  = (Ret tt,
     {| bridge := {| mcp_url := url; session := Some 0 |};
        created := 1;
        closed := [0];
        posts := [mkPost 0 url (request_value 1)];
        stdout := [dq "{`jsonrpc`: `2.0`, `id`: 1, `result`: {}}"] |}).
Proof. vm_compute. reflexivity. Qed.

(** ** Malformed lines *)

(** C4, as amended: a line that standard input delivers as text and that
    [json.loads] rejects with [JSONDecodeError] (unbalanced braces, for
    one) leaves the world as it was, no line printed and no HTTP call
    issued, and the loop goes on with the lines that follow. *)
Theorem malformed_line_dropped {rt : PyRuntime}
  (line : string) (e : exn) (rest : list stdin_event) (w : World) :
  json_loads (strip line) = inl e ->
  isinstance_JSONDecodeError e = true ->
  for_stdin (Line line :: rest) w = for_stdin rest w.
Proof.
  intros Hparse Hcls.
  rewrite for_stdin_line.
  unfold loop_body, handle_line, try_except, bind.
  rewrite Hparse. cbn [lift raise]. rewrite Hcls. reflexivity.
Qed.

Lemma malformed_line_dropped_witness :
  for_stdin (rt := runtime echo)
    [Line unbalanced_line; Line (request_line "7")] ready_world
  = for_stdin (rt := runtime echo) [Line (request_line "7")] ready_world.
Proof.
  apply (malformed_line_dropped (rt := runtime echo) unbalanced_line
           (Exn JSONDecodeError "Expecting value")); reflexivity.
Defined.

(** C4 as stated fails on a line that is no UTF-8: the read of that line
    raises [UnicodeDecodeError] in the [for] statement, outside the [try];
    [main] ends with that exception and the request on the next line,
    which alone would have been answered, is never handled. *)
Lemma undecodable_line_ends_the_loop :
  let run := main (rt := runtime echo)
               (sys_stdin [non_utf8_line; request_line "1"]) initial_world in
  fst run = Raise (Exn UnicodeDecodeError
                     "'utf-8' codec can't decode bytes: invalid UTF-8")
  /\ posts (snd run) = []
  /\ stdout (snd run) = []
  /\ stdout (snd (main (rt := runtime echo)
                    (sys_stdin [request_line "1"]) initial_world))
     = [dq "{`jsonrpc`: `2.0`, `id`: 1, `result`: {}}"].
Proof. vm_compute. repeat split. Qed.

(** ** Notifications *)




(** ** Requests *)




(** ** Transport failures *)




(** ** The loop as a whole *)

Section Loop_lemmas.
Context {rt : PyRuntime}.


(** What one turn of the loop can change: it adds calls made through the
    bridge's session and lines of output, nothing else. *)
Lemma loop_body_keeps_session (line : string) (w : World) (s : Session) :
  session (bridge w) = Some s ->
  is_closed s w = false ->
  forall r w', loop_body line w = (r, w') ->
    bridge w' = bridge w /\ created w' = created w /\ closed w' = closed w
    /\ exists new, posts w' = posts w ++ new
                   /\ Forall (fun p => post_session p = s) new.
Proof.
  intros Hs Hopen r w'.
  assert (Hnil : forall w0 : World, posts w0 = posts w0 ++ []
                 /\ Forall (fun p => post_session p = s) [])
    by (intros; rewrite app_nil_r; split; [reflexivity | constructor]).
  assert (Hone : forall v, exists new,
             posts w ++ [mkPost s (mcp_url (bridge w)) v] = posts w ++ new
             /\ Forall (fun p => post_session p = s) new)
    by (intros v; eexists; split; [reflexivity | repeat constructor]).
  destruct (json_loads (strip line)) as [e | request] eqn:Hparse.
  - unfold loop_body, handle_line, try_except, bind. rewrite Hparse.
    cbn [lift raise].
    destruct (isinstance_JSONDecodeError e);
      [| destruct (isinstance_Exception e)];
      intros H; inversion H; subst; cbn;
      repeat split; try reflexivity; exists []; apply Hnil.
  - rewrite (loop_body_parsed _ _ _ Hparse), (forward_request_open _ _ _ Hs Hopen).
    cbv zeta.
    destruct (round_trip w request) as [e | v].
    + destruct (isinstance_Exception e) eqn:Hcls.
      * destruct request; cbn;
          intros H; inversion H; subst; cbn;
          repeat split; try reflexivity; apply Hone.
      * unfold isinstance_JSONDecodeError, isinstance_Exception in *.
        destruct (exn_cls e); try discriminate Hcls;
          intros H; inversion H; subst; cbn;
          repeat split; try reflexivity; apply Hone.
    + intros H; inversion H; subst; cbn.
      repeat split; try reflexivity; apply Hone.
Qed.

Lemma for_stdin_keeps_session (events : list stdin_event) :
  forall (w : World) (s : Session),
    session (bridge w) = Some s ->
    is_closed s w = false ->
    forall r w', for_stdin events w = (r, w') ->
      bridge w' = bridge w /\ created w' = created w /\ closed w' = closed w
      /\ exists new, posts w' = posts w ++ new
                     /\ Forall (fun p => post_session p = s) new.
Proof.
  induction events as [| [line | e] rest IH]; intros w s Hs Hopen r w'.
  - cbn. intros H; inversion H; subst.
    repeat split. exists []. rewrite app_nil_r. split; [reflexivity | constructor].
  - rewrite for_stdin_line.
    destruct (loop_body line w) as [[[] | e] w1] eqn:Hbody;
      destruct (loop_body_keeps_session line w s Hs Hopen _ _ Hbody)
        as (Hb & Hc & Hcl & new & Hp & Hall).
    + intros Hrest.
      assert (Hs1 : session (bridge w1) = Some s) by (rewrite Hb; exact Hs).
      assert (Hopen1 : is_closed s w1 = false)
        by (unfold is_closed in *; rewrite Hcl; exact Hopen).
      destruct (IH w1 s Hs1 Hopen1 _ _ Hrest)
        as (Hb' & Hc' & Hcl' & new' & Hp' & Hall').
      repeat split; try congruence.
      exists (new ++ new'). split.
      * rewrite Hp', Hp, app_assoc. reflexivity.
      * apply Forall_app. split; assumption.
    + intros H; inversion H; subst.
      repeat split; try assumption. exists new. split; assumption.
  - cbn. intros H; inversion H; subst.
    repeat split. exists []. rewrite app_nil_r. split; [reflexivity | constructor].
Qed.

(** [main] in terms of the loop run inside [async with bridge]. *)
Lemma main_run (stdin : list stdin_event) :
  main stdin initial_world =
    match for_stdin stdin ready_world with
    | (Ret _, w') => (Ret tt, snd (aexit w'))
    | (Raise e, w') =>
        (if isinstance_KeyboardInterrupt e then Ret tt else Raise e,
         snd (aexit w'))
    end.
Proof.
  unfold main, try_except, async_with, bind. cbn [aenter].
  change (snd (aenter initial_world)) with ready_world.
  unfold ready_world. cbn [aenter ClientSession set_session bind snd].
  match goal with
  | |- context [for_stdin stdin ?w0] =>
      destruct (for_stdin stdin w0) as [[[] | e] w']
  end.
  - unfold aexit, bind, get_self. destruct (session (bridge w')); reflexivity.
  - unfold aexit, bind, get_self.
    destruct (session (bridge w')); cbn;
      destruct (isinstance_KeyboardInterrupt e); reflexivity.
Qed.

Lemma aexit_open (w : World) (s : Session) :
  session (bridge w) = Some s ->
  snd (aexit w) =
    {| bridge := bridge w; created := created w; closed := closed w ++ [s];
       posts := posts w; stdout := stdout w |}.
Proof.
  intros Hs. unfold aexit, bind, get_self. rewrite Hs. reflexivity.
Qed.

End Loop_lemmas.

(** ** Replies of the server *)




(** ** Order of the output *)

Section Ordering.
Context {rt : PyRuntime}.

(** Nothing raised by the network or by the reading of a body is a
    signal, and the server answers a request under the request's id. *)
Hypothesis post_raises_exceptions :
  forall history url request e,
    http history url request = inl e -> isinstance_Exception e = true.
Hypothesis json_raises_exceptions :
  forall history url request response e,
    http history url request = inr response ->
    resp_json response = inl e -> isinstance_Exception e = true.
Hypothesis server_echoes_id :
  forall history url request response v i,
    http history url request = inr response ->
    resp_json response = inr v ->
    envelope_id request = Some i -> envelope_id v = Some i.




End Ordering.





(** ** The client session *)

(** C9, as amended: a run of [main] builds exactly one client session.
    It is built on entering [async with bridge], before any line is read
    ([forward_request] builds one itself only on a bridge that has none);
    every call issued goes through it; it is closed once, when [main]
    leaves the block, whether the loop ended or raised; and no request
    builds a second session on a bridge that holds one. *)
Theorem one_session_per_run {rt : PyRuntime} :
  (forall stdin : list stdin_event,
      let w := snd (main stdin initial_world) in
      created w = 1 /\ session (bridge w) = Some 0 /\ closed w = [0]
      /\ Forall (fun p => post_session p = 0) (posts w))
  /\ (created ready_world = 1 /\ session (bridge ready_world) = Some 0
      /\ posts ready_world = [])
  /\ (forall (request : JSON) (w : World),
         created (snd (forward_request request w))
         = match session (bridge w) with
           | Some _ => created w
           | None => S (created w)
           end).
Proof.
  split; [| split].
  - intros stdin w. subst w. rewrite main_run.
    destruct (for_stdin stdin ready_world) as [r w'] eqn:Hrun.
    destruct (for_stdin_keeps_session stdin ready_world 0 eq_refl eq_refl _ _ Hrun)
      as (Hb & Hc & Hcl & new & Hp & Hall).
    assert (Hs : session (bridge w') = Some 0) by (rewrite Hb; reflexivity).
    destruct r as [[] | e]; cbn [snd]; rewrite (aexit_open w' 0 Hs); cbn;
      rewrite Hb, Hc, Hcl, Hp; repeat split; exact Hall.
  - repeat split.
  - intros request w.
    unfold forward_request, bind, get_self, try_except.
    destruct (session (bridge w)) as [s |] eqn:Hs; cbn [ret aenter bind].
    + rewrite Hs. unfold session_post.
      destruct (is_closed s w); cbn.
      * destruct request; reflexivity.
      * destruct (http (posts w) (mcp_url (bridge w)) request) as [e | response]; cbn.
        -- destruct (isinstance_Exception e); [destruct request |]; reflexivity.
        -- destruct (resp_json response) as [e | v]; cbn; [| reflexivity].
           destruct (isinstance_Exception e); [destruct request |]; reflexivity.
    + unfold ClientSession, set_session, bind. cbn. unfold session_post.
      match goal with
      | |- context [is_closed ?s0 ?w0] => destruct (is_closed s0 w0)
      end; cbn.
      * destruct request; reflexivity.
      * destruct (http (posts w) (mcp_url (bridge w)) request) as [e | response]; cbn.
        -- destruct (isinstance_Exception e); [destruct request |]; reflexivity.
        -- destruct (resp_json response) as [e | v]; cbn; [| reflexivity].
           destruct (isinstance_Exception e); [destruct request |]; reflexivity.
Qed.

(** C9 as stated fails: the session is not built on the first forwarded
    request.  On an empty standard input no request is forwarded, and a
    session has been built and closed all the same. *)
Lemma session_built_without_request :
  let w := snd (main (rt := runtime echo) [] initial_world) in
  posts w = [] /\ created w = 1 /\ closed w = [0].
Proof. vm_compute. repeat split. Qed.

(** ** Messages that are no object *)




(** * Further properties of the bridge *)

Import Faults.

Section Forward_lemmas.
Context {rt : PyRuntime}.

(** On a bridge without session, [forward_request] first enters. *)
Lemma forward_request_none (request : JSON) (w : World) :
  session (bridge w) = None ->
  forward_request request w = forward_request request (snd (aenter w)).
Proof.
  intros Hs. unfold forward_request, bind, get_self. rewrite Hs. reflexivity.
Qed.

(** On a bridge whose session is closed, nothing is sent. *)
Lemma forward_request_closed (request : JSON) (w : World) (s : Session) :
  session (bridge w) = Some s ->
  is_closed s w = true ->
  forward_request request w =
    match request with
    | JDict items =>
        (Ret (http_error_response (Exn RuntimeError "Session is closed")
                (dict_get "id" items)), w)
    | _ =>
        (Raise (Exn AttributeError
                  ("'" ++ type_name request ++ "' object has no attribute 'get'")), w)
    end.
Proof.
  intros Hs Hclosed.
  unfold forward_request, bind, get_self, try_except, session_post.
  rewrite Hs. cbn [ret]. rewrite Hs, Hclosed. cbn.
  destruct request; reflexivity.
Qed.

(** What [forward_request] can change, in any world: it prints nothing,
    closes nothing, and issues at most one call, whose payload is the
    request and whose URL is the bridge's. *)
Lemma forward_request_effects (request : JSON) (w : World) :
  forall r w', forward_request request w = (r, w') ->
    stdout w' = stdout w /\ closed w' = closed w
    /\ mcp_url (bridge w') = mcp_url (bridge w)
    /\ (posts w' = posts w
        \/ exists s, posts w' = posts w ++ [mkPost s (mcp_url (bridge w)) request]).
Proof.
  assert (Hsome : forall w0 s, session (bridge w0) = Some s ->
            forall r w', forward_request request w0 = (r, w') ->
              stdout w' = stdout w0 /\ closed w' = closed w0
              /\ mcp_url (bridge w') = mcp_url (bridge w0)
              /\ (posts w' = posts w0
                  \/ exists s', posts w' = posts w0
                                  ++ [mkPost s' (mcp_url (bridge w0)) request])).
  { intros w0 s Hs r w'.
    destruct (is_closed s w0) eqn:Hclosed.
    - rewrite (forward_request_closed _ _ _ Hs Hclosed).
      destruct request; intros H; inversion H; subst; repeat split; left; reflexivity.
    - rewrite (forward_request_open _ _ _ Hs Hclosed). cbv zeta.
      destruct (round_trip w0 request) as [e | v];
        [destruct (isinstance_Exception e); [destruct request |] |];
        intros H; inversion H; subst; repeat split; right; exists s; reflexivity. }
  intros r w'.
  destruct (session (bridge w)) as [s |] eqn:Hs.
  - apply (Hsome w s Hs).
  - rewrite (forward_request_none _ _ Hs). intros H.
    exact (Hsome (snd (aenter w)) (created w) eq_refl r w' H).
Qed.

End Forward_lemmas.

Section Turn_lemmas.
Context {rt : PyRuntime}.

Lemma round_trip_reply (w : World) (request v : JSON) :
  round_trip w request = inr v -> server_reply v.
Proof.
  unfold round_trip.
  destruct (http (posts w) (mcp_url (bridge w)) request) as [e | response] eqn:Hhttp;
    [discriminate |].
  intros Hjson. exists (posts w), (mcp_url (bridge w)), request, response.
  split; assumption.
Qed.

Lemma round_trip_aenter (w : World) (request : JSON) :
  round_trip (snd (aenter w)) request = round_trip w request.
Proof. reflexivity. Qed.

(** What [forward_request] returns or raises, in any world. *)
Lemma forward_request_result (request : JSON) (w : World) :
  forall r w', forward_request request w = (r, w') ->
    match r with
    | Ret v => server_reply v \/ exists e i, v = http_error_response e i
    | Raise e =>
        isinstance_Exception e = false
        \/ (is_dict request = false
            /\ e = Exn AttributeError
                     ("'" ++ type_name request ++ "' object has no attribute 'get'"))
    end.
Proof.
  assert (Hsome : forall w0 s, session (bridge w0) = Some s ->
            forall r w', forward_request request w0 = (r, w') ->
              match r with
              | Ret v => server_reply v \/ exists e i, v = http_error_response e i
              | Raise e =>
                  isinstance_Exception e = false
                  \/ (is_dict request = false
                      /\ e = Exn AttributeError
                               ("'" ++ type_name request
                                ++ "' object has no attribute 'get'"))
              end).
  { intros w0 s Hs r w'.
    destruct (is_closed s w0) eqn:Hclosed.
    - rewrite (forward_request_closed _ _ _ Hs Hclosed).
      destruct request; intros H; inversion H; subst;
        try (right; split; reflexivity).
      right. eexists _, _. reflexivity.
    - rewrite (forward_request_open _ _ _ Hs Hclosed). cbv zeta.
      destruct (round_trip w0 request) as [e | v] eqn:Htrip.
      + destruct (isinstance_Exception e) eqn:Hcls.
        * destruct request; intros H; inversion H; subst;
            try (right; split; reflexivity).
          right. eexists _, _. reflexivity.
        * intros H; inversion H; subst. left. exact Hcls.
      + intros H; inversion H; subst. left. exact (round_trip_reply _ _ _ Htrip). }
  intros r w'.
  destruct (session (bridge w)) as [s |] eqn:Hs.
  - apply (Hsome w s Hs).
  - rewrite (forward_request_none _ _ Hs).
    apply (Hsome (snd (aenter w)) (created w) eq_refl).
Qed.

(** One turn of the loop on a line that [json.loads] refuses. *)
Lemma loop_body_unparsed (line : string) (e : exn) (w : World) :
  json_loads (strip line) = inl e ->
  loop_body line w =
    if isinstance_JSONDecodeError e then (Ret tt, w)
    else if isinstance_Exception e then
      (Ret tt, log_line (json_dumps (error_response e)) w)
    else (Raise e, w).
Proof.
  intros Hparse. unfold loop_body, handle_line, try_except, bind.
  rewrite Hparse. cbn [lift raise].
  destruct (isinstance_JSONDecodeError e); [reflexivity |].
  destruct (isinstance_Exception e); reflexivity.
Qed.

Lemma signal_is_no_decode_error (e : exn) :
  isinstance_Exception e = false -> isinstance_JSONDecodeError e = false.
Proof.
  unfold isinstance_Exception, isinstance_JSONDecodeError.
  destruct (exn_cls e); intros H; try discriminate H; reflexivity.
Qed.

(** What one turn prints, in any world: at most one line, one of the
    bridge's outputs; exactly one when the turn returns on a line that is
    not skipped, none when it raises. *)
Lemma loop_body_output (line : string) (w : World) :
  forall r w', loop_body line w = (r, w') ->
    exists out,
      stdout w' = stdout w ++ out
      /\ Forall bridge_output out
      /\ length out = match r with
                      | Ret _ => if answered (Line line) then 1 else 0
                      | Raise _ => 0
                      end.
Proof.
  intros r w'. unfold answered.
  destruct (json_loads (strip line)) as [e | request] eqn:Hparse.
  - rewrite (loop_body_unparsed _ _ _ Hparse).
    destruct (isinstance_JSONDecodeError e); cbn [negb].
    + intros H; inversion H; subst. exists []. rewrite app_nil_r.
      repeat split. constructor.
    + destruct (isinstance_Exception e); intros H; inversion H; subst.
      * exists [json_dumps (error_response e)]. repeat split.
        constructor; [| constructor].
        exists (error_response e). split; [reflexivity |].
        right. right. exists e. reflexivity.
      * exists []. rewrite app_nil_r. repeat split. constructor.
  - rewrite (loop_body_parsed _ _ _ Hparse).
    destruct (forward_request request w) as [[v | e] w1] eqn:Hf;
      destruct (forward_request_effects request w _ _ Hf) as (Hout & _);
      pose proof (forward_request_result request w _ _ Hf) as Hres; cbn in Hres.
    + intros H; inversion H; subst. exists [json_dumps v].
      cbn [stdout log_line]. rewrite Hout. repeat split.
      constructor; [| constructor].
      exists v. split; [reflexivity |].
      destruct Hres as [Hreply | Herr]; [left | right; left]; assumption.
    + destruct Hres as [Hsig | [_ ->]].
      * rewrite (signal_is_no_decode_error e Hsig), Hsig.
        intros H; inversion H; subst. exists []. rewrite app_nil_r.
        repeat split; [assumption | constructor].
      * cbn -[String.append].
        intros H; inversion H; subst. eexists [_].
        cbn [stdout log_line]. rewrite Hout. repeat split.
        constructor; [| constructor].
        eexists. split; [reflexivity |]. right. right. eexists. reflexivity.
Qed.

(** What one turn sends, in any world: at most one call. *)
Lemma loop_body_calls (line : string) (w : World) :
  forall r w', loop_body line w = (r, w') ->
    exists new, posts w' = posts w ++ new /\ length new <= 1.
Proof.
  intros r w'.
  destruct (json_loads (strip line)) as [e | request] eqn:Hparse.
  - rewrite (loop_body_unparsed _ _ _ Hparse).
    destruct (isinstance_JSONDecodeError e);
      [| destruct (isinstance_Exception e)];
      intros H; inversion H; subst; exists []; rewrite app_nil_r;
      split; cbn; auto.
  - rewrite (loop_body_parsed _ _ _ Hparse).
    destruct (forward_request request w) as [[v | e] w1] eqn:Hf;
      destruct (forward_request_effects request w _ _ Hf)
        as (_ & _ & _ & [Hp | [s Hp]]);
      try (destruct (isinstance_JSONDecodeError e);
           [| destruct (isinstance_Exception e)]);
      intros H; inversion H; subst; cbn [posts log_line]; rewrite Hp;
      first [ solve [exists []; rewrite app_nil_r; split; [reflexivity | cbn; auto]]
            | solve [eexists [_]; split; [reflexivity | cbn; auto]] ].
Qed.

End Turn_lemmas.

Section Run_lemmas.
Context {rt : PyRuntime}.

Lemma aexit_keeps_output (w : World) :
  stdout (snd (aexit w)) = stdout w /\ posts (snd (aexit w)) = posts w.
Proof.
  unfold aexit, bind, get_self. destruct (session (bridge w)); split; reflexivity.
Qed.

Lemma main_world (stdin : list stdin_event) :
  snd (main stdin initial_world) = snd (aexit (snd (for_stdin stdin ready_world))).
Proof.
  rewrite main_run.
  destruct (for_stdin stdin ready_world) as [[[] | e] w']; reflexivity.
Qed.

Lemma count_lines_cons_line (line : string) (events : list stdin_event) :
  count_lines (Line line :: events) = S (count_lines events).
Proof. reflexivity. Qed.

(** The loop, in any world: what it prints and what it sends. *)
Lemma for_stdin_growth (events : list stdin_event) :
  forall (w : World) r w', for_stdin events w = (r, w') ->
    exists out new,
      stdout w' = stdout w ++ out /\ posts w' = posts w ++ new
      /\ length out <= count_lines events /\ length new <= count_lines events
      /\ Forall bridge_output out
      /\ (r = Ret tt -> length out = length (filter answered events)).
Proof.
  induction events as [| [line | e] rest IH]; intros w r w'.
  - cbn. intros H; inversion H; subst. exists [], []. rewrite !app_nil_r.
    repeat split; try apply Nat.le_0_l; try constructor.
  - rewrite for_stdin_line.
    destruct (loop_body line w) as [[[] | e] w1] eqn:Hbody;
      destruct (loop_body_output line w _ _ Hbody) as (out1 & Hout1 & Hok1 & Hlen1);
      destruct (loop_body_calls line w _ _ Hbody) as (new1 & Hnew1 & Hle1).
    + intros Hrest.
      destruct (IH w1 r w' Hrest) as (out & new & Hout & Hnew & Hlo & Hln & Hok & Hexact).
      exists (out1 ++ out), (new1 ++ new).
      rewrite Hout, Hout1, Hnew, Hnew1, !app_assoc, !length_app,
        count_lines_cons_line.
      repeat split.
      * destruct (answered (Line line)); lia.
      * lia.
      * apply Forall_app. split; assumption.
      * intros Hr. specialize (Hexact Hr). cbn [filter].
        destruct (answered (Line line)); cbn [length]; lia.
    + intros H; inversion H; subst. exists out1, new1.
      rewrite count_lines_cons_line.
      repeat split; try assumption; try lia; try discriminate.
  - cbn. intros H; inversion H; subst. exists [], []. rewrite !app_nil_r.
    repeat split; try apply Nat.le_0_l; try constructor; try discriminate.
Qed.

End Run_lemmas.

(** ** [forward_request] outside the loop *)

(** X1: given a JSON object, [forward_request] raises no [Exception],
    whatever the state of the bridge's session and whatever the network
    does: if it raises at all, what it raises is a signal. *)
Theorem forward_request_object_raises_only_signals {rt : PyRuntime}
  (items : list (string * JSON)) (w w' : World) (e : exn) :
  forward_request (JDict items) w = (Raise e, w') ->
  isinstance_Exception e = false.
Proof.
  intros Hf.
  pose proof (forward_request_result (JDict items) w _ _ Hf) as Hres.
  cbn in Hres. destruct Hres as [Hsig | [Hdict _]];
    [exact Hsig | discriminate Hdict].
Qed.

Lemma forward_request_object_raises_only_signals_witness :
  forward_request (rt := runtime interrupted) (JDict notification_items) initial_world
  = (Raise (Exn KeyboardInterrupt EmptyString),
     log_post (mkPost 0 url (JDict notification_items)) ready_world)
  /\ isinstance_Exception (Exn KeyboardInterrupt EmptyString) = false.
Proof.
  split; [reflexivity |].
  apply (forward_request_object_raises_only_signals (rt := runtime interrupted)
           notification_items initial_world
           (log_post (mkPost 0 url (JDict notification_items)) ready_world)).
  reflexivity.
Defined.

(** X2: on a bridge that has no session, [forward_request] builds one,
    keeps it in [self.session], sends the request through it, and leaves
    it open. *)
Theorem forward_request_builds_missing_session {rt : PyRuntime}
  (request : JSON) (w w' : World) (r : result JSON) :
  session (bridge w) = None ->
  is_closed (created w) w = false ->
  forward_request request w = (r, w') ->
  session (bridge w') = Some (created w)
  /\ created w' = S (created w)
  /\ closed w' = closed w
  /\ posts w' = posts w ++ [mkPost (created w) (mcp_url (bridge w)) request].
Proof.
  intros Hs Hfresh. rewrite (forward_request_none _ _ Hs).
  rewrite (forward_request_open request (snd (aenter w)) (created w) eq_refl Hfresh).
  cbv zeta. rewrite round_trip_aenter.
  destruct (round_trip w request) as [e | v];
    [destruct (isinstance_Exception e); [destruct request |] |];
    intros H; inversion H; subst; repeat split.
Qed.

Lemma forward_request_builds_missing_session_witness :
  let w' := snd (forward_request (rt := runtime echo) (request_value 1) initial_world) in
  session (bridge w') = Some 0
  /\ created w' = 1
  /\ closed w' = []
  /\ posts w' = [mkPost 0 url (request_value 1)].
Proof.
  apply (forward_request_builds_missing_session (rt := runtime echo)
           (request_value 1) initial_world _
           (fst (forward_request (rt := runtime echo) (request_value 1) initial_world)));
    reflexivity.
Defined.

(** X3: [__aexit__] closes the session and leaves it in [self.session].
    After it, [forward_request] builds no new session and sends nothing:
    for a JSON object it returns the -32603 envelope whose message is
    that of the closed session. *)
Theorem forward_request_after_exit {rt : PyRuntime}
  (items : list (string * JSON)) (w : World) (s : Session) :
  session (bridge w) = Some s ->
  forward_request (JDict items) (snd (aexit w))
  = (Ret (JDict [("jsonrpc", JStr "2.0");
                 ("error", JDict [("code", JInt (-32603));
                                  ("message",
                                   JStr "HTTP request failed: Session is closed")]);
                 ("id", dict_get "id" items)]),
     snd (aexit w)).
Proof.
  intros Hs. rewrite (aexit_open w s Hs).
  apply (forward_request_closed (JDict items) _ s); [exact Hs |].
  unfold is_closed. cbn [closed]. rewrite existsb_app. cbn.
  rewrite Nat.eqb_refl, orb_true_r. reflexivity.
Qed.

Lemma forward_request_after_exit_witness :
  forward_request (rt := runtime echo) (request_value 1) (snd (aexit ready_world))
  = (Ret (JDict [("jsonrpc", JStr "2.0");
                 ("error", JDict [("code", JInt (-32603));
                                  ("message",
                                   JStr "HTTP request failed: Session is closed")]);
                 ("id", JInt 1)]),
     snd (aexit ready_world)).
Proof.
  apply (forward_request_after_exit (rt := runtime echo)
           [("jsonrpc", JStr "2.0"); ("id", JInt 1);
            ("method", JStr "tools/list"); ("params", JDict [])]
           ready_world 0).
  reflexivity.
Defined.

(** X4: [__aenter__] on a bridge that already holds an open session
    replaces it; the [__aexit__] that follows closes the new session
    only, and the earlier one stays open. *)
Theorem reentered_bridge_leaves_session_open
  (w : World) (s : Session) :
  session (bridge w) = Some s ->
  s < created w ->
  is_closed s w = false ->
  let w' := snd ((aenter ;; aexit)%py w) in
  session (bridge w') = Some (created w)
  /\ is_closed (created w) w' = true
  /\ is_closed s w' = false.
Proof.
  intros Hs Hlt Hopen. cbn. unfold is_closed, Session in *. cbn [closed].
  rewrite !existsb_app, Hopen. cbn [existsb].
  rewrite Nat.eqb_refl, !orb_false_r, orb_true_r.
  repeat split.
  destruct (Nat.eqb_spec s (created w)); [lia | reflexivity].
Qed.

Lemma reentered_bridge_leaves_session_open_witness :
  let w' := snd ((aenter ;; aexit)%py ready_world) in
  session (bridge w') = Some 1
  /\ is_closed 1 w' = true
  /\ is_closed 0 w' = false.
Proof.
  apply (reentered_bridge_leaves_session_open ready_world 0);
    [reflexivity | cbn; lia | reflexivity].
Defined.

(** ** The loop, line by line *)



(** X9: every line a run of [main] prints is [json.dumps] of a value that
    [response.json()] returned for a reply of the server, of a -32603
    envelope or of a -32700 envelope; nothing else reaches standard
    output. *)
Theorem main_prints_only_replies_and_envelopes {rt : PyRuntime}
  (stdin : list stdin_event) :
  Forall bridge_output (stdout (snd (main stdin initial_world))).
Proof.
  rewrite main_world.
  destruct (aexit_keeps_output (snd (for_stdin stdin ready_world))) as [-> _].
  destruct (for_stdin stdin ready_world) as [r w'] eqn:Hrun.
  destruct (for_stdin_growth stdin ready_world r w' Hrun)
    as (out & new & Hout & _ & _ & _ & Hok & _).
  cbn [snd]. rewrite Hout. exact Hok.
Qed.



(** X11: when a signal (an exception that is no [Exception]) is raised
    while the request of a line is in flight, the call has been issued,
    nothing is printed for the line and the lines after it are not
    read: the loop ends with that signal. *)
Theorem signal_in_flight_ends_the_loop {rt : PyRuntime}
  (line : string) (request : JSON) (rest : list stdin_event)
  (w : World) (s : Session) (e : exn) :
  json_loads (strip line) = inr request ->
  session (bridge w) = Some s ->
  is_closed s w = false ->
  round_trip w request = inl e ->
  isinstance_Exception e = false ->
  for_stdin (Line line :: rest) w
  = (Raise e, log_post (mkPost s (mcp_url (bridge w)) request) w).
Proof.
  intros Hparse Hs Hopen Hfail Hsig.
  rewrite for_stdin_line, (loop_body_parsed _ _ _ Hparse),
    (forward_request_open _ _ _ Hs Hopen).
  cbv zeta. rewrite Hfail, Hsig, (signal_is_no_decode_error e Hsig), Hsig.
  reflexivity.
Qed.

Lemma signal_in_flight_ends_the_loop_witness :
  for_stdin (rt := runtime interrupted)
    [Line (request_line "1"); Line (request_line "2")] ready_world
  = (Raise (Exn KeyboardInterrupt EmptyString),
     log_post (mkPost 0 url (request_value 1)) ready_world).
Proof.
  apply (signal_in_flight_ends_the_loop (rt := runtime interrupted)
           (request_line "1") (request_value 1) [Line (request_line "2")]
           ready_world 0 (Exn KeyboardInterrupt EmptyString)); reflexivity.
Defined.

(** ** White space around a line *)

Section Strip_lemmas.

Lemma isspace_small (c : ascii) : isspace c = true -> nat_of_ascii c <= 32.
Proof.
  unfold isspace. cbv zeta.
  rewrite orb_true_iff, !andb_true_iff, !Nat.leb_le. lia.
Qed.

Lemma isspace2_small (c0 c1 : ascii) :
  nat_of_ascii c1 <= 32 -> isspace2 c0 c1 = false.
Proof.
  intros H. unfold isspace2. cbv zeta.
  destruct (Nat.eqb_spec (nat_of_ascii c1) 133); [lia |].
  destruct (Nat.eqb_spec (nat_of_ascii c1) 160); [lia |].
  apply andb_false_r.
Qed.

Lemma isspace3_small_second (c0 c1 c2 : ascii) :
  nat_of_ascii c1 <= 32 -> isspace3 c0 c1 c2 = false.
Proof.
  intros H. unfold isspace3. cbv zeta.
  destruct (Nat.eqb_spec (nat_of_ascii c1) 154); [lia |].
  destruct (Nat.eqb_spec (nat_of_ascii c1) 128); [lia |].
  destruct (Nat.eqb_spec (nat_of_ascii c1) 129); [lia |].
  rewrite !andb_false_r. reflexivity.
Qed.

Lemma isspace3_small_third (c0 c1 c2 : ascii) :
  nat_of_ascii c2 <= 32 -> isspace3 c0 c1 c2 = false.
Proof.
  intros H. unfold isspace3. cbv zeta.
  destruct (Nat.eqb_spec (nat_of_ascii c2) 128); [lia |].
  destruct (Nat.eqb_spec (nat_of_ascii c2) 168); [lia |].
  destruct (Nat.eqb_spec (nat_of_ascii c2) 169); [lia |].
  destruct (Nat.eqb_spec (nat_of_ascii c2) 175); [lia |].
  destruct (Nat.eqb_spec (nat_of_ascii c2) 159); [lia |].
  destruct (Nat.leb_spec 128 (nat_of_ascii c2)); [lia |].
  rewrite !andb_false_r. reflexivity.
Qed.

Lemma all_space_cons (c : ascii) (s : string) :
  all_space (String c s) = true -> isspace c = true /\ all_space s = true.
Proof. unfold all_space. cbn. apply andb_true_iff. Qed.

Lemma lstrip_all_space (s : string) : all_space s = true -> lstrip s = EmptyString.
Proof.
  induction s as [| c s IH]; [reflexivity |].
  intros H. destruct (all_space_cons c s H) as [Hc Hs].
  cbn. rewrite Hc. exact (IH Hs).
Qed.

Lemma lstrip_space_app (before s : string) :
  all_space before = true -> lstrip (before ++ s) = lstrip s.
Proof.
  induction before as [| c before IH]; [reflexivity |].
  intros H. destruct (all_space_cons c before H) as [Hc Hs].
  cbn [String.append lstrip]. rewrite Hc. exact (IH Hs).
Qed.

(** White space after the text does not change what [lstrip] removes. *)
Lemma lstrip_app_space (after : string) :
  all_space after = true ->
  forall (n : nat) (s : string),
    String.length s <= n ->
    lstrip (s ++ after) =
      match lstrip s with
      | EmptyString => EmptyString
      | kept => (kept ++ after)%string
      end.
Proof.
  intros Hafter. induction n as [| n IH]; intros s Hlen.
  - destruct s; [| cbn in Hlen; lia]. cbn. exact (lstrip_all_space after Hafter).
  - destruct s as [| c0 r0]; [cbn; exact (lstrip_all_space after Hafter) |].
    cbn [String.append lstrip]. cbn [String.length] in Hlen.
    destruct (isspace c0) eqn:H0; [apply IH; lia |].
    destruct r0 as [| c1 r1].
    + cbn [String.append].
      destruct after as [| a1 after1]; [reflexivity |].
      destruct (all_space_cons a1 after1 Hafter) as [Ha1 Hafter1].
      rewrite (isspace2_small c0 a1 (isspace_small a1 Ha1)).
      destruct after1 as [| a2 after2]; [reflexivity |].
      rewrite (isspace3_small_second c0 a1 a2 (isspace_small a1 Ha1)).
      reflexivity.
    + cbn [String.append]. cbn [String.length] in Hlen.
      destruct (isspace2 c0 c1) eqn:H1; [apply IH; lia |].
      destruct r1 as [| c2 r2].
      * cbn [String.append].
        destruct after as [| a1 after1]; [reflexivity |].
        destruct (all_space_cons a1 after1 Hafter) as [Ha1 _].
        rewrite (isspace3_small_third c0 c1 a1 (isspace_small a1 Ha1)).
        reflexivity.
      * cbn [String.append]. cbn [String.length] in Hlen.
        destruct (isspace3 c0 c1 c2) eqn:H2; [apply IH; lia |].
        reflexivity.
Qed.

Lemma rstrip_all_space (s : string) : all_space s = true -> rstrip s = EmptyString.
Proof.
  intros H. destruct s as [| c s]; [reflexivity |].
  cbn [rstrip]. rewrite (lstrip_all_space _ H). reflexivity.
Qed.

Lemma rstrip_app_space (s after : string) :
  all_space after = true -> rstrip (s ++ after) = rstrip s.
Proof.
  intros Hafter. induction s as [| c s IH].
  - cbn. exact (rstrip_all_space after Hafter).
  - cbn [String.append rstrip].
    change (String c (s ++ after)) with (String c s ++ after)%string.
    rewrite (lstrip_app_space after Hafter (String.length (String c s)) (String c s)
               (Nat.le_refl _)).
    destruct (lstrip (String c s)); [reflexivity |].
    cbn [String.append]. rewrite IH. reflexivity.
Qed.

Lemma strip_surrounded (before line after : string) :
  all_space before = true ->
  all_space after = true ->
  strip (before ++ line ++ after) = strip line.
Proof.
  intros Hb Ha. unfold strip.
  rewrite (lstrip_space_app before _ Hb),
    (lstrip_app_space after Ha (String.length line) line (Nat.le_refl _)).
  destruct (lstrip line); [reflexivity |].
  apply rstrip_app_space. exact Ha.
Qed.

End Strip_lemmas.

(** X13: white space (below U+0080) before and after the text of a line,
    the line terminator included, makes no difference to the bridge: the
    line is handled as the text alone would be. *)
Theorem surrounding_space_ignored {rt : PyRuntime}
  (before line after : string) (rest : list stdin_event) (w : World) :
  all_space before = true ->
  all_space after = true ->
  for_stdin (Line (before ++ line ++ after) :: rest) w
  = for_stdin (Line line :: rest) w.
Proof.
  intros Hb Ha. rewrite !for_stdin_line.
  unfold loop_body, handle_line.
  rewrite (strip_surrounded before line after Hb Ha). reflexivity.
Qed.

Lemma surrounding_space_ignored_witness :
  let tab := String (ascii_of_nat 9) EmptyString in
  let crlf := String (ascii_of_nat 13) (String (ascii_of_nat 10) EmptyString) in
  for_stdin (rt := runtime echo)
    [Line ((" " ++ tab) ++ dq "{`id`: 5}" ++ (" " ++ crlf))] ready_world
  = for_stdin (rt := runtime echo) [Line (dq "{`id`: 5}")] ready_world.
Proof.
  apply (surrounding_space_ignored (rt := runtime echo)); reflexivity.
Defined.

(** * The bridge on a standard output that can fail *)

Import Outputs.

Section Pipe_lemmas.
Context {rt : PyRuntime} {so : PyStdout}.

Lemma pipe_for_stdin_line (line : string) (rest : list stdin_event) (w : World) :
  Pipe.for_stdin (Line line :: rest) w =
    match Pipe.loop_body line w with
    | (Ret _, w') => Pipe.for_stdin rest w'
    | (Raise e, w') => (Raise e, w')
    end.
Proof. reflexivity. Qed.

(** The [except] clauses, on what the [try] suite raised in world [w0]. *)
Lemma pipe_handlers_run (e : exn) (w0 : World) :
  match Pipe.handlers e with
  | Some suite => suite w0
  | None => (Raise e, w0)
  end =
    if isinstance_JSONDecodeError e then (Ret tt, w0)
    else if isinstance_Exception e then
      match stdout_write (stdout w0) (json_dumps (error_response e)) with
      | None => (Ret tt, log_line (json_dumps (error_response e)) w0)
      | Some e' => (Raise e', w0)
      end
    else (Raise e, w0).
Proof.
  unfold Pipe.handlers.
  destruct (isinstance_JSONDecodeError e); [reflexivity |].
  destruct (isinstance_Exception e); reflexivity.
Qed.

(** One turn of the loop, in any world: the world [w0] in which the
    forward ended, then at most one line written. *)
Lemma pipe_loop_body_shape (line : string) (w : World) :
  forall r w', Pipe.loop_body line w = (r, w') ->
    exists w0 out,
      match json_loads (strip line) with
      | inl _ => w0 = w
      | inr request => exists r0, forward_request request w = (r0, w0)
      end
      /\ bridge w' = bridge w0 /\ created w' = created w0
      /\ closed w' = closed w0 /\ posts w' = posts w0
      /\ stdout w' = stdout w0 ++ out /\ length out <= 1.
Proof.
  intros r w'.
  assert (Hhandled : forall e w0,
             match Pipe.handlers e with
             | Some suite => suite w0
             | None => (Raise e, w0)
             end = (r, w') ->
             bridge w' = bridge w0 /\ created w' = created w0
             /\ closed w' = closed w0 /\ posts w' = posts w0
             /\ exists out, stdout w' = stdout w0 ++ out /\ length out <= 1).
  { intros e w0. rewrite pipe_handlers_run.
    destruct (isinstance_JSONDecodeError e);
      [| destruct (isinstance_Exception e);
         [destruct (stdout_write (stdout w0) (json_dumps (error_response e))) |]];
      intros H; inversion H; subst; repeat split;
      first [ solve [exists []; rewrite app_nil_r; split; [reflexivity | cbn; lia]]
            | solve [eexists [_]; split; [reflexivity | cbn; lia]] ]. }
  unfold Pipe.loop_body, try_except, Pipe.handle_line.
  unfold bind at 1.
  destruct (json_loads (strip line)) as [e | request]; cbn [lift raise ret].
  - intros H. destruct (Hhandled e w H) as (Hb & Hc & Hcl & Hp & out & Hout & Hlen).
    exists w, out. repeat split; assumption.
  - unfold bind.
    destruct (forward_request request w) as [[v | e] w0] eqn:Hf.
    + unfold Pipe.print.
      destruct (stdout_write (stdout w0) (json_dumps v)) as [e' |].
      * intros H.
        destruct (Hhandled e' w0 H) as (Hb & Hc & Hcl & Hp & out & Hout & Hlen).
        exists w0, out. split; [eexists; reflexivity |]. repeat split; assumption.
      * intros H; inversion H; subst.
        exists w0, [json_dumps v]. split; [eexists; reflexivity |].
        repeat split. cbn. lia.
    + intros H.
      destruct (Hhandled e w0 H) as (Hb & Hc & Hcl & Hp & out & Hout & Hlen).
      exists w0, out. split; [eexists; reflexivity |]. repeat split; assumption.
Qed.

(** An exception that leaves a turn is a signal or what the write of the
    -32700 envelope raised. *)
Lemma pipe_loop_body_raises (line : string) (w : World) :
  forall e w', Pipe.loop_body line w = (Raise e, w') ->
    isinstance_Exception e = false \/ envelope_write_raises e.
Proof.
  intros e w'. unfold Pipe.loop_body, try_except.
  destruct (Pipe.handle_line line w) as [[[] | e0] w0]; [discriminate |].
  rewrite pipe_handlers_run.
  destruct (isinstance_JSONDecodeError e0); [discriminate |].
  destruct (isinstance_Exception e0) eqn:Hcls.
  - destruct (stdout_write (stdout w0) (json_dumps (error_response e0))) as [e' |] eqn:Hw;
      [| discriminate].
    intros H. injection H as He _. rewrite <- He.
    right. exists e0, (stdout w0). exact Hw.
  - intros H; inversion H; subst. left. exact Hcls.
Qed.

Lemma forward_request_open_world (request : JSON) (w : World) (s : Session) :
  session (bridge w) = Some s ->
  is_closed s w = false ->
  forall r0 w0, forward_request request w = (r0, w0) ->
    w0 = log_post (mkPost s (mcp_url (bridge w)) request) w.
Proof.
  intros Hs Hopen r0 w0. rewrite (forward_request_open _ _ _ Hs Hopen). cbv zeta.
  destruct (round_trip w request) as [e | v];
    [destruct (isinstance_Exception e); [destruct request |] |];
    intros H; inversion H; reflexivity.
Qed.

Lemma parsed_values_cons (ev : stdin_event) (events : list stdin_event) :
  parsed_values (ev :: events) = parsed_values [ev] ++ parsed_values events.
Proof. unfold parsed_values. cbn [flat_map]. rewrite app_nil_r. reflexivity. Qed.

(** One turn on a bridge with an open session: the session is kept and
    the call issued is that of the line's value, if it has one. *)
Lemma pipe_loop_body_posts (line : string) (w : World) (s : Session) :
  session (bridge w) = Some s ->
  is_closed s w = false ->
  forall r w', Pipe.loop_body line w = (r, w') ->
    bridge w' = bridge w /\ closed w' = closed w
    /\ posts w' = posts w
                  ++ map (mkPost s (mcp_url (bridge w))) (parsed_values [Line line]).
Proof.
  intros Hs Hopen r w' Hbody.
  destruct (pipe_loop_body_shape line w r w' Hbody)
    as (w0 & out & Hw0 & Hb & _ & Hcl & Hp & _).
  unfold parsed_values. cbn [flat_map].
  destruct (json_loads (strip line)) as [e | request].
  - subst w0. rewrite Hb, Hcl, Hp. cbn. rewrite app_nil_r. repeat split.
  - destruct Hw0 as [r0 Hf].
    rewrite (forward_request_open_world request w s Hs Hopen r0 w0 Hf) in Hb, Hcl, Hp.
    rewrite Hb, Hcl, Hp. repeat split.
Qed.

Lemma pipe_for_stdin_posts (events : list stdin_event) :
  forall (w : World) (s : Session),
    session (bridge w) = Some s ->
    is_closed s w = false ->
    exists done rest,
      events = done ++ rest
      /\ posts (snd (Pipe.for_stdin events w))
         = posts w ++ map (mkPost s (mcp_url (bridge w))) (parsed_values done)
      /\ (fst (Pipe.for_stdin events w) = Ret tt -> rest = []).
Proof.
  induction events as [| [line | e] evs IH]; intros w s Hs Hopen.
  - exists [], []. cbn. rewrite app_nil_r. repeat split.
  - rewrite pipe_for_stdin_line.
    destruct (Pipe.loop_body line w) as [[[] | e] w1] eqn:Hbody;
      destruct (pipe_loop_body_posts line w s Hs Hopen _ _ Hbody) as (Hb & Hcl & Hp).
    + assert (Hs1 : session (bridge w1) = Some s) by (rewrite Hb; exact Hs).
      assert (Hopen1 : is_closed s w1 = false)
        by (unfold is_closed in *; rewrite Hcl; exact Hopen).
      destruct (IH w1 s Hs1 Hopen1) as (done & rest & Hev & Hposts & Hend).
      exists (Line line :: done), rest. repeat split.
      * rewrite Hev. reflexivity.
      * rewrite Hposts, Hp, Hb, (parsed_values_cons (Line line) done),
          map_app, app_assoc. reflexivity.
      * exact Hend.
    + exists [Line line], evs. repeat split.
      * cbn [snd]. exact Hp.
      * cbn. discriminate.
  - exists [], (StdinRaise e :: evs). cbn. rewrite app_nil_r. repeat split.
    discriminate.
Qed.

(** [Pipe.main] in terms of the loop run inside [async with bridge]. *)
Lemma pipe_main_run (stdin : list stdin_event) :
  Pipe.main stdin initial_world =
    match Pipe.for_stdin stdin ready_world with
    | (Ret _, w') => (Ret tt, snd (aexit w'))
    | (Raise e, w') =>
        (if isinstance_KeyboardInterrupt e then Ret tt else Raise e,
         snd (aexit w'))
    end.
Proof.
  unfold Pipe.main, try_except, async_with, bind. cbn [aenter].
  change (snd (aenter initial_world)) with ready_world.
  unfold ready_world. cbn [aenter ClientSession set_session bind snd].
  match goal with
  | |- context [Pipe.for_stdin stdin ?w0] =>
      destruct (Pipe.for_stdin stdin w0) as [[[] | e] w']
  end.
  - unfold aexit, bind, get_self. destruct (session (bridge w')); reflexivity.
  - unfold aexit, bind, get_self.
    destruct (session (bridge w')); cbn;
      destruct (isinstance_KeyboardInterrupt e); reflexivity.
Qed.

(** The loop ends with an exception only on a signal, on what the read
    raised, or on what the write of a -32700 envelope raised. *)
Lemma pipe_for_stdin_raises (events : list stdin_event) :
  forall (w : World) e w', Pipe.for_stdin events w = (Raise e, w') ->
    isinstance_Exception e = false
    \/ stdin_raises events e
    \/ envelope_write_raises e.
Proof.
  induction events as [| [line | e0] rest IH]; intros w e w'.
  - cbn. discriminate.
  - rewrite pipe_for_stdin_line.
    destruct (Pipe.loop_body line w) as [[[] | e1] w1] eqn:Hbody.
    + intros Hrest.
      destruct (IH w1 e w' Hrest) as [Hsig | [(lines & rest' & Hev) | Hout]];
        [left; exact Hsig | | right; right; exact Hout].
      right. left. exists (line :: lines), rest'. rewrite Hev. reflexivity.
    + intros H; inversion H; subst.
      destruct (pipe_loop_body_raises line w e w' Hbody) as [Hsig | Hout];
        [left; exact Hsig | right; right; exact Hout].
  - cbn. intros H; inversion H; subst. right. left. exists [], rest. reflexivity.
Qed.

Lemma pipe_loop_body_unparsed (line : string) (e : exn) (w : World) :
  json_loads (strip line) = inl e ->
  Pipe.loop_body line w =
    match Pipe.handlers e with
    | Some suite => suite w
    | None => (Raise e, w)
    end.
Proof.
  intros Hparse. unfold Pipe.loop_body, try_except, Pipe.handle_line, bind.
  rewrite Hparse. reflexivity.
Qed.

Lemma pipe_loop_body_parsed (line : string) (request : JSON) (w : World) :
  json_loads (strip line) = inr request ->
  Pipe.loop_body line w =
    match forward_request request w with
    | (Ret v, w0) =>
        match stdout_write (stdout w0) (json_dumps v) with
        | None => (Ret tt, log_line (json_dumps v) w0)
        | Some e' =>
            match Pipe.handlers e' with
            | Some suite => suite w0
            | None => (Raise e', w0)
            end
        end
    | (Raise e, w0) =>
        match Pipe.handlers e with
        | Some suite => suite w0
        | None => (Raise e, w0)
        end
    end.
Proof.
  intros Hparse. unfold Pipe.loop_body, try_except, Pipe.handle_line, bind.
  rewrite Hparse. cbn [lift ret].
  destruct (forward_request request w) as [[v | e] w0]; [| reflexivity].
  unfold Pipe.print.
  destruct (stdout_write (stdout w0) (json_dumps v)); reflexivity.
Qed.

(** When no write raises, the loop is the one of the first part. *)
Lemma pipe_loop_body_working (line : string) (w : World) :
  (forall written l, stdout_write written l = None) ->
  Pipe.loop_body line w = loop_body line w.
Proof.
  intros Hok.
  destruct (json_loads (strip line)) as [e | request] eqn:Hparse.
  - rewrite (pipe_loop_body_unparsed _ _ _ Hparse), (loop_body_unparsed _ _ _ Hparse),
      pipe_handlers_run, Hok. reflexivity.
  - rewrite (pipe_loop_body_parsed _ _ _ Hparse), (loop_body_parsed _ _ _ Hparse).
    destruct (forward_request request w) as [[v | e] w0].
    + rewrite Hok. reflexivity.
    + rewrite pipe_handlers_run, Hok. reflexivity.
Qed.

Lemma pipe_for_stdin_working (events : list stdin_event) (w : World) :
  (forall written l, stdout_write written l = None) ->
  Pipe.for_stdin events w = for_stdin events w.
Proof.
  intros Hok. revert w. induction events as [| [line | e] rest IH]; intros w.
  - reflexivity.
  - rewrite pipe_for_stdin_line, for_stdin_line, (pipe_loop_body_working line w Hok).
    destruct (loop_body line w) as [[[] | e] w1]; [apply IH | reflexivity].
  - reflexivity.
Qed.

Lemma pipe_main_working (stdin : list stdin_event) :
  (forall written l, stdout_write written l = None) ->
  Pipe.main stdin initial_world = main stdin initial_world.
Proof.
  intros Hok. rewrite pipe_main_run, main_run, (pipe_for_stdin_working _ _ Hok).
  reflexivity.
Qed.

End Pipe_lemmas.

(** ** Where the loop ends *)

(** C5, as amended: whatever standard input delivers and whatever the
    writes to standard output do, the loop stops in four ways only.  If
    it returns, the stream was read to its end and every event was a
    line.  If it raises [e], then [e] is no [Exception] (an interrupt, a
    cancellation, an exit), or [e] is what the read of standard input
    raised (an undecodable line included), or [e] is what the write of a
    -32700 envelope raised.  No [Exception] of [json.loads], of the
    forward or of [request.get] ends the loop. *)
Theorem loop_ends_only_on_signal_stdin_or_stdout {rt : PyRuntime} {so : PyStdout}
  (events : list stdin_event) (w : World) :
  match Pipe.for_stdin events w with
  | (Ret _, _) => forallb is_line events = true
  | (Raise e, _) =>
      isinstance_Exception e = false
      \/ stdin_raises events e
      \/ envelope_write_raises e
  end.
Proof.
  destruct (Pipe.for_stdin events w) as [[[] | e] w'] eqn:Hrun.
  - revert w Hrun. induction events as [| [line | e] rest IH]; intros w.
    + reflexivity.
    + rewrite pipe_for_stdin_line.
      destruct (Pipe.loop_body line w) as [[[] | e] w1]; [| discriminate].
      intros Hrest. exact (IH w1 Hrest).
    + cbn. discriminate.
  - exact (pipe_for_stdin_raises events w e w' Hrun).
Qed.

(** C5 as stated fails: once the reader of standard output has gone, the
    [print] of the first reply raises [BrokenPipeError], the [print] of
    the handler raises it again, and [main] ends with that [Exception]
    while a line is still to be read. *)
Lemma closed_stdout_ends_main :
  let failure := Exn (OtherException "BrokenPipeError") "[Errno 32] Broken pipe" in
  let run := Pipe.main (rt := runtime echo) (so := broken_pipe)
               [Line (request_line "1"); Line (request_line "2")] initial_world in
  fst run = Raise failure
  /\ isinstance_Exception failure = true
  /\ posts (snd run) = [mkPost 0 url (request_value 1)]
  /\ stdout (snd run) = [].
Proof. vm_compute. repeat split. Qed.




(** ** Every turn, every run *)


(** X7: whatever the writes do, the HTTP calls of a run of [main] are,
    in order, one call for each handled line that [json.loads] accepted,
    made through the one session to the bridge's URL with the line's
    value as [json=] argument; the body sent is [json.dumps] of the
    value, and none for the value [None].  When the loop reads its input
    to the end, no accepted line is left out. *)
Theorem main_posts_parsed_lines_in_order {rt : PyRuntime} {so : PyStdout}
  (stdin : list stdin_event) :
  exists done rest,
    stdin = done ++ rest
    /\ posts (snd (Pipe.main stdin initial_world))
       = map (mkPost 0 (mcp_url StdioBridge_init)) (parsed_values done)
    /\ map post_body (posts (snd (Pipe.main stdin initial_world)))
       = map (fun v => match v with
                       | JNone => None
                       | _ => Some (json_dumps v)
                       end) (parsed_values done)
    /\ (fst (Pipe.for_stdin stdin ready_world) = Ret tt -> rest = []).
Proof.
  destruct (pipe_for_stdin_posts stdin ready_world 0 eq_refl eq_refl)
    as (done & rest & Hev & Hposts & Hend).
  assert (Hmain : posts (snd (Pipe.main stdin initial_world))
                  = map (mkPost 0 (mcp_url StdioBridge_init)) (parsed_values done)).
  { rewrite pipe_main_run.
    destruct (Pipe.for_stdin stdin ready_world) as [[[] | e] w']; cbn [snd] in *;
      destruct (aexit_keeps_output w') as [_ ->]; exact Hposts. }
  exists done, rest. repeat split; [exact Hev | exact Hmain | | exact Hend].
  rewrite Hmain, map_map. apply map_ext. intros v. destruct v; reflexivity.
Qed.

(** X12: whatever the writes do, [main] never ends with a
    [KeyboardInterrupt], which its outer [except] clause absorbs; an
    exception it does end with is another signal, what the read of
    standard input raised, or what the write of a -32700 envelope
    raised. *)
Theorem main_raises_no_keyboard_interrupt {rt : PyRuntime} {so : PyStdout}
  (stdin : list stdin_event) (e : exn) (w : World) :
  Pipe.main stdin initial_world = (Raise e, w) ->
  isinstance_KeyboardInterrupt e = false
  /\ (isinstance_Exception e = false
      \/ stdin_raises stdin e
      \/ envelope_write_raises e).
Proof.
  rewrite pipe_main_run.
  destruct (Pipe.for_stdin stdin ready_world) as [[[] | e0] w'] eqn:Hrun;
    [discriminate |].
  destruct (isinstance_KeyboardInterrupt e0) eqn:Hki; [discriminate |].
  intros H; inversion H; subst. split; [exact Hki |].
  exact (pipe_for_stdin_raises stdin ready_world e w' Hrun).
Qed.

Lemma main_raises_no_keyboard_interrupt_witness :
  let failure := Exn (OtherException "BrokenPipeError") "[Errno 32] Broken pipe" in
  isinstance_KeyboardInterrupt failure = false
  /\ (isinstance_Exception failure = false
      \/ stdin_raises [Line (request_line "1")] failure
      \/ envelope_write_raises (rt := runtime echo) (so := broken_pipe) failure).
Proof.
  apply (main_raises_no_keyboard_interrupt (rt := runtime echo) (so := broken_pipe)
           [Line (request_line "1")] _
           (snd (Pipe.main (rt := runtime echo) (so := broken_pipe)
                   [Line (request_line "1")] initial_world))).
  reflexivity.
Defined.
